(** * fastapidemo: a shallow embedding of the three services

    - [FastAPI/main.py]: the Demo Service (module [Demo]).
    - [Flask/app.py]: the SQLite-backed API Service (module [Api]).
    - [Flask/client.py]: the Client Service that forwards to the API
      Service over HTTP (module [Client]).

    Python objects are modelled by the data they carry: [str] as the
    [string] of its UTF-8 bytes,
    [int] as [Z], [float] as a primitive float, [dict] as an association
    list in insertion order, a [set] of strings as a [gset], JSON
    documents as the inductive [json].  Handlers that touch the database
    are written in a state-and-exception monad over the [world]; an
    exception keeps the state reached when it was raised, as in Python.

    The frameworks are modelled as far as the handlers rely on them:
    URL rules with the [int] converter and the registered methods, the
    answer to an exception that escapes a view, the encoding of a
    returned value as a JSON body.  Requests use the three methods that
    occur in the repository. *)

From Stdlib Require Import Ascii String DecimalString DecimalPos Floats.
From stdpp Require Import gmap strings list.

#[local] Set Warnings "-register-all".
Local Open Scope string_scope.
Local Open Scope Z_scope.
Local Open Scope list_scope.

(** ** JSON documents and HTTP responses *)

(** The members of an object are listed in the order of the dict they
    encode. *)
Inductive json : Type :=
  | JNull
  | JInt (z : Z)
  | JReal (f : float)
  | JStr (s : string)
  | JArr (items : list json)
  | JObj (fields : list (string * json)).

(** [json.dumps(..., allow_nan=False)] accepts a document only when
    every number in it is finite. *)
Fixpoint json_finite (j : json) : bool :=
  match j with
  | JReal f => PrimFloat.is_finite f
  | JArr items => forallb json_finite items
  | JObj fields => forallb (fun kv => json_finite (snd kv)) fields
  | _ => true
  end.

(** First binding of a key in an association list: the lookup of a dict
    built in insertion order, and of a form [MultiDict]. *)
Fixpoint assoc {A : Type} (k : string) (l : list (string * A)) : option A :=
  match l with
  | [] => None
  | (k', v) :: rest => if String.eqb k k' then Some v else assoc k rest
  end.

Inductive http_method : Type := GET | POST | DELETE.

Inductive body : Type :=
  | BJson (j : json)
  | BTemplate (name : string) (context : list (string * json))
  | BRedirect (location : string)
  | BErrorPage.

Record response : Type := mkResponse { status : Z; payload : body }.

(** Python exceptions that the modelled code paths can raise. *)
Inductive exn : Type :=
  | OperationalError (msg : string)
  | ProgrammingError (msg : string)
  | OverflowError (msg : string)
  | TypeError (msg : string)
  | ValueError (msg : string)
  | JSONDecodeError
  | InvalidJSONError
  | BadRequestKeyError (key : string).

(** Flask answers an [HTTPException] with its own code and any other
    unhandled exception with 500. *)
Definition status_of_exn (e : exn) : Z :=
  match e with
  | BadRequestKeyError _ => 400
  | _ => 500
  end.

Inductive route_result (E : Type) : Type :=
  | Matched (endpoint : E)
  | NotFound
  | MethodNotAllowed.
Arguments Matched {E} endpoint.
Arguments NotFound {E}.
Arguments MethodNotAllowed {E}.

(** *** Text and the [int] URL converter

    A [string] holds a text in UTF-8.  The converter matches a path
    segment against [\d+] and applies [int] to it, and both go by the
    decimal digits of Unicode, not only the ASCII ones. *)

Definition byte_of (c : ascii) : Z := Z.of_nat (nat_of_ascii c).

Definition continuation (b : Z) : bool := (128 <=? b) && (b <? 192).

(** The code points of a UTF-8 text; [None] when the bytes are not
    well-formed UTF-8 (overlong forms and surrogates included), in
    which case the decoded text holds a replacement character and the
    segment matches no digit pattern. *)
Fixpoint utf8_decode (s : string) : option (list Z) :=
  match s with
  | EmptyString => Some []
  | String c1 rest1 =>
      let b1 := byte_of c1 in
      if b1 <? 128 then cons b1 <$> utf8_decode rest1
      else
        match rest1 with
        | EmptyString => None
        | String c2 rest2 =>
            let b2 := byte_of c2 in
            if (194 <=? b1) && (b1 <? 224) then
              if continuation b2
              then cons ((b1 - 192) * 64 + (b2 - 128)) <$> utf8_decode rest2
              else None
            else
              match rest2 with
              | EmptyString => None
              | String c3 rest3 =>
                  let b3 := byte_of c3 in
                  if (224 <=? b1) && (b1 <? 240) then
                    let cp := (b1 - 224) * 4096 + (b2 - 128) * 64 + (b3 - 128) in
                    if continuation b2 && continuation b3 && (2048 <=? cp)
                       && negb ((55296 <=? cp) && (cp <=? 57343))
                    then cons cp <$> utf8_decode rest3
                    else None
                  else
                    match rest3 with
                    | EmptyString => None
                    | String c4 rest4 =>
                        let b4 := byte_of c4 in
                        let cp := (b1 - 240) * 262144 + (b2 - 128) * 4096
                                  + (b3 - 128) * 64 + (b4 - 128) in
                        if (240 <=? b1) && (b1 <? 245)
                           && continuation b2 && continuation b3 && continuation b4
                           && (65536 <=? cp) && (cp <=? 1114111)
                        then cons cp <$> utf8_decode rest4
                        else None
                    end
              end
        end
  end.

(** The code points with decimal digit value 0 (general category Nd,
    Unicode 14.0, the table of CPython 3.11): each starts a run of ten
    digits 0 to 9. *)
Definition decimal_zeros : list Z :=
  [48; 1632; 1776; 1984; 2406; 2534; 2662; 2790; 2918; 3046; 3174; 3302;
   3430; 3558; 3664; 3792; 3872; 4160; 4240; 6112; 6160; 6470; 6608; 6784;
   6800; 6992; 7088; 7232; 7248; 42528; 43216; 43264; 43472; 43504; 43600;
   44016; 65296; 66720; 68912; 69734; 69872; 69942; 70096; 70384; 70736;
   70864; 71248; 71360; 71472; 71904; 72016; 72784; 73040; 73120; 92768;
   92864; 93008; 120782; 120792; 120802; 120812; 120822; 123200; 123632;
   125264; 130032].

(** The decimal digit value of a code point, if it is a decimal digit. *)
Definition decimal_digit (cp : Z) : option Z :=
  (fun zero => cp - zero)
    <$> List.find (fun zero => (zero <=? cp) && (cp <=? zero + 9)) decimal_zeros.

Fixpoint digits_value (acc : Z) (cps : list Z) : option Z :=
  match cps with
  | [] => Some acc
  | cp :: rest =>
      match decimal_digit cp with
      | Some d => digits_value (acc * 10 + d) rest
      | None => None
      end
  end.

(** The [int] URL converter: one or more decimal digits, no sign. *)
Definition int_converter (segment : string) : option Z :=
  match utf8_decode segment with
  | Some (cp :: rest) => digits_value 0 (cp :: rest)
  | _ => None
  end.

(** What a reader calls an integer in decimal notation: an optional sign
    followed by at least one decimal digit. *)
Fixpoint all_digits (cps : list Z) : bool :=
  match cps with
  | [] => true
  | cp :: rest =>
      match decimal_digit cp with
      | Some _ => all_digits rest
      | None => false
      end
  end.

Definition is_integer_text (s : string) : bool :=
  match utf8_decode s with
  | Some (cp :: rest) =>
      if (cp =? 45) || (cp =? 43)
      then match rest with [] => false | _ => all_digits rest end
      else all_digits (cp :: rest)
  | _ => false
  end.

(** ** FastAPI/main.py: the Demo Service *)

Module Demo.

(** Values a handler of this service returns. *)
Inductive pyval : Type :=
  | PyStr (s : string)
  | PyList (l : list pyval)
  | PySet (s : gset string)
  | PyDict (d : list (string * pyval)).

(** FastAPI's response encoding: a dict becomes a JSON object, a list
    or a set a JSON array, a str a JSON string. *)
Fixpoint jsonable_encoder (v : pyval) : json :=
  match v with
  | PyStr s => JStr s
  | PyList l => JArr (map jsonable_encoder l)
  | PySet s => JArr (map JStr (elements s))
  | PyDict d => JObj (map (fun kv => (fst kv, jsonable_encoder (snd kv))) d)
  end.

(** [items = []]: the process-wide list is the state of the service. *)
Definition items_state : Type := list string.
Definition items : items_state := [].

Definition root (st : items_state) : pyval * items_state :=
  (PyDict [("hello", PyStr "world")], st).

Definition about (st : items_state) : pyval * items_state :=
  (PySet {["About Page"]}, st).

Definition create_item (item : string) (st : items_state) : pyval * items_state :=
  let st' := st ++ [item] in
  (PyStr item, st').

(** A request: method, path segments and the [item] query parameter. *)
Record request : Type :=
  mkRequest { req_method : http_method;
              req_path : list string;
              req_item : option string }.

Inductive endpoint : Type := EpRoot | EpAbout | EpCreateItem.

Definition route (m : http_method) (path : list string) : route_result endpoint :=
  match path with
  | [] => match m with GET => Matched EpRoot | _ => MethodNotAllowed end
  | ["about"] => match m with GET => Matched EpAbout | _ => MethodNotAllowed end
  | ["items"] => match m with POST => Matched EpCreateItem | _ => MethodNotAllowed end
  | _ => NotFound
  end.

Definition ok (v : pyval) : response := mkResponse 200 (BJson (jsonable_encoder v)).

(** [item: str] is a required query parameter: without it FastAPI
    answers 422 and the handler is not called. *)
Definition dispatch (r : request) (st : items_state) : response * items_state :=
  match route (req_method r) (req_path r) with
  | Matched EpRoot => let '(v, st') := root st in (ok v, st')
  | Matched EpAbout => let '(v, st') := about st in (ok v, st')
  | Matched EpCreateItem =>
      match req_item r with
      | Some item => let '(v, st') := create_item item st in (ok v, st')
      | None => (mkResponse 422 BErrorPage, st)
      end
  | NotFound => (mkResponse 404 BErrorPage, st)
  | MethodNotAllowed => (mkResponse 405 BErrorPage, st)
  end.

(** [POST /items?item=s] *)
Definition post_item (s : string) : request := mkRequest POST ["items"] (Some s).

(** The service handling a sequence of requests, oldest first. *)
Fixpoint serve (rs : list request) (st : items_state) : list response * items_state :=
  match rs with
  | [] => ([], st)
  | r :: rest =>
      let '(resp, st1) := dispatch r st in
      let '(resps, st2) := serve rest st1 in
      (resp :: resps, st2)
  end.

(** The strings of the create-item requests that reach the handler. *)
Fixpoint created (rs : list request) : list string :=
  match rs with
  | [] => []
  | r :: rest =>
      match route (req_method r) (req_path r), req_item r with
      | Matched EpCreateItem, Some item => item :: created rest
      | _, _ => created rest
      end
  end.

End Demo.

(** ** Flask/app.py: the API Service over SQLite *)

Module Api.

(** *** The data store *)

Inductive sqlval : Type :=
  | SqlNull
  | SqlInt (z : Z)
  | SqlReal (f : float)
  | SqlText (s : string).

(** A [sqlite3.Row]: the columns of one result row, in column order. *)
Definition Row : Type := list (string * sqlval).

(** Modelled from the spec: the schema of [database.db] is not part of
    the sources; the tables are [users(id, name, email)] and
    [products(id, name, price)] with integer ids, text names and
    emails, and a real price. *)
Record user : Type :=
  mkUser { user_id : Z; user_name : string; user_email : string }.

Record product : Type :=
  mkProduct { product_id : Z; product_name : string; product_price : float }.

Record database : Type :=
  mkDatabase { users : list user; products : list product }.

Definition row_of_user (u : user) : Row :=
  [("id", SqlInt (user_id u)); ("name", SqlText (user_name u));
   ("email", SqlText (user_email u))].

Definition row_of_product (p : product) : Row :=
  [("id", SqlInt (product_id p)); ("name", SqlText (product_name p));
   ("price", SqlReal (product_price p))].

(** *** Requests, the world and the handler monad *)

Record request : Type :=
  mkRequest { req_method : http_method;
              req_path : list string;
              req_json : option json }.

(** The state the service runs in: the contents of [database.db], the
    handles of the connections that are open, the next fresh handle,
    and the requests the service has received, oldest first. *)
Record world : Type :=
  mkWorld { store : database;
            open_conns : gset nat;
            next_conn : nat;
            access_log : list request }.

Definition M (A : Type) : Type := world -> (exn + A) * world.

Definition ret {A : Type} (a : A) : M A := fun w => (inr a, w).

Definition raise {A : Type} (e : exn) : M A := fun w => (inl e, w).

Definition bind {A B : Type} (m : M A) (k : A -> M B) : M B :=
  fun w =>
    match m w with
    | (inl e, w') => (inl e, w')
    | (inr a, w') => k a w'
    end.

#[global] Instance M_ret : MRet M := @ret.
#[global] Instance M_bind : MBind M := fun A B k m => bind m k.

(** *** The sqlite3 module *)

(** What the program needs of the SQL engine behind a cursor: running
    a statement with its bindings against the database, which yields a
    result set or raises and may change the database, and draining a
    result set into rows, which may raise too. *)
Class Sqlite3 : Type :=
  { resultset : Type;
    engine_execute :
      database -> string -> list sqlval -> (exn + resultset) * database;
    engine_fetchall : resultset -> exn + list Row }.

Section QueryHelper.
Context `{Sqlite3}.

Record connection : Type := mkConnection { conn_handle : nat }.

Record cursor : Type :=
  mkCursor { cur_conn : connection; cur_result : option resultset }.

Definition DB_NAME : string := "database.db".

Definition sqlite3_connect (name : string) : M connection :=
  fun w =>
    let h := next_conn w in
    (inr (mkConnection h),
     mkWorld (store w) ({[h]} ∪ open_conns w) (S h) (access_log w)).

Definition conn_cursor (conn : connection) : M cursor :=
  ret (mkCursor conn None).

Definition cursor_execute (cur : cursor) (query : string) (args : list sqlval)
  : M cursor :=
  fun w =>
    if decide (conn_handle (cur_conn cur) ∈ open_conns w) then
      let '(r, db') := engine_execute (store w) query args in
      let w' := mkWorld db' (open_conns w) (next_conn w) (access_log w) in
      match r with
      | inl e => (inl e, w')
      | inr rs => (inr (mkCursor (cur_conn cur) (Some rs)), w')
      end
    else (inl (ProgrammingError "Cannot operate on a closed database."), w).

Definition cursor_fetchall (cur : cursor) : M (list Row) :=
  match cur_result cur with
  | None => ret []
  | Some rs =>
      match engine_fetchall rs with
      | inl e => raise e
      | inr rows => ret rows
      end
  end.

Definition conn_close (conn : connection) : M unit :=
  fun w =>
    (inr tt,
     mkWorld (store w) (open_conns w ∖ {[conn_handle conn]}) (next_conn w)
             (access_log w)).

(** What [query_db] returns: the list of rows, one row, or [None]. *)
Inductive query_result : Type :=
  | QRows (rows : list Row)
  | QRow (row : Row)
  | QNone.

(** [(rows[0] if rows else None) if one else rows] *)
Definition shape (one : bool) (rows : list Row) : query_result :=
  if one then match rows with r :: _ => QRow r | [] => QNone end
  else QRows rows.

(** [conn.row_factory = sqlite3.Row] makes the fetched rows
    mapping-like, which is what [Row] is. *)
Definition query_db (query : string) (args : list sqlval) (one : bool)
  : M query_result :=
  conn ← sqlite3_connect DB_NAME;
  cur ← conn_cursor conn;
  cur ← cursor_execute cur query args;
  rows ← cursor_fetchall cur;
  conn_close conn;;
  ret (shape one rows).

(** The world a call of [query_db] leaves behind: the database as the
    engine left it, one more handle used, and that handle closed or
    still open. *)
Definition after_query (db : database) (closed : bool) (w : world) : world :=
  let h := next_conn w in
  let opened := {[h]} ∪ open_conns w in
  mkWorld db (if closed then opened ∖ {[h]} else opened) (S h) (access_log w).

(** *** Responses *)

Definition json_of_sqlval (v : sqlval) : json :=
  match v with
  | SqlNull => JNull
  | SqlInt z => JInt z
  | SqlReal f => JReal f
  | SqlText s => JStr s
  end.

(** [dict(row)]: the columns of the row as a dict. *)
Definition dict (row : Row) : list (string * sqlval) := row.

Definition json_of_dict (d : list (string * sqlval)) : json :=
  JObj (map (fun kv => (fst kv, json_of_sqlval (snd kv))) d).

Definition jsonify (j : json) : response := mkResponse 200 (BJson j).

(** Truth value of what [query_db] returned: [None], a row without
    columns and an empty list are false. *)
Definition truthy (r : query_result) : bool :=
  match r with
  | QNone => false
  | QRow [] => false
  | QRow (_ :: _) => true
  | QRows [] => false
  | QRows (_ :: _) => true
  end.

(** *** The handlers *)

Definition home : M response :=
  ret (mkResponse 200
         (BJson (JObj [("message", JStr "Welcome to the Flask SQLite API")]))).

(** [jsonify([dict(row) for row in rows])], the return expression of
    the two list handlers.  Called with [one=False], [query_db] returns
    a list; the other shapes would make the comprehension raise. *)
Definition list_response (rows : query_result) : M response :=
  match rows with
  | QRows rows => ret (jsonify (JArr (map (fun row => json_of_dict (dict row)) rows)))
  | QRow _ => raise (TypeError "row value is not iterable")
  | QNone => raise (TypeError "'NoneType' object is not iterable")
  end.

(** [jsonify(dict(row)) if row else ({"error": missing}, 404)], the
    return expression of the two by-id handlers. *)
Definition one_response (row : query_result) (missing : string) : M response :=
  if truthy row then
    match row with
    | QRow r => ret (jsonify (json_of_dict (dict r)))
    | _ => raise (ValueError "dictionary update sequence element")
    end
  else ret (mkResponse 404 (BJson (JObj [("error", JStr missing)]))).

Definition get_users : M response :=
  rows ← query_db "SELECT * FROM users" [] false;
  list_response rows.

Definition get_user (user_id : Z) : M response :=
  row ← query_db "SELECT * FROM users WHERE id = ?" [SqlInt user_id] true;
  one_response row "User not found".

Definition get_products : M response :=
  rows ← query_db "SELECT * FROM products" [] false;
  list_response rows.

Definition get_product (product_id : Z) : M response :=
  row ← query_db "SELECT * FROM products WHERE id = ?" [SqlInt product_id] true;
  one_response row "Product not found".

(** *** Routing *)

Inductive endpoint : Type :=
  | EpHome
  | EpGetUsers
  | EpGetUser (user_id : Z)
  | EpGetProducts
  | EpGetProduct (product_id : Z).

(** Every rule of this service is registered for GET only. *)
Definition get_only (m : http_method) (e : endpoint) : route_result endpoint :=
  match m with GET => Matched e | _ => MethodNotAllowed end.

Definition route (m : http_method) (path : list string) : route_result endpoint :=
  match path with
  | [] => get_only m EpHome
  | ["users"] => get_only m EpGetUsers
  | ["users"; seg] =>
      match int_converter seg with
      | Some i => get_only m (EpGetUser i)
      | None => NotFound
      end
  | ["products"] => get_only m EpGetProducts
  | ["products"; seg] =>
      match int_converter seg with
      | Some i => get_only m (EpGetProduct i)
      | None => NotFound
      end
  | _ => NotFound
  end.

Definition view (e : endpoint) : M response :=
  match e with
  | EpHome => home
  | EpGetUsers => get_users
  | EpGetUser i => get_user i
  | EpGetProducts => get_products
  | EpGetProduct i => get_product i
  end.

Definition log_request (r : request) (w : world) : world :=
  mkWorld (store w) (open_conns w) (next_conn w) (access_log w ++ [r]).

(** The service answering one request: route it, run the view, and
    turn an exception that escapes the view into an error response. *)
Definition dispatch (r : request) (w : world) : response * world :=
  let w := log_request r w in
  match route (req_method r) (req_path r) with
  | Matched e =>
      match view e w with
      | (inr resp, w') => (resp, w')
      | (inl ex, w') => (mkResponse (status_of_exn ex) BErrorPage, w')
      end
  | NotFound => (mkResponse 404 BErrorPage, w)
  | MethodNotAllowed => (mkResponse 405 BErrorPage, w)
  end.

(** The service answering a sequence of requests, oldest first. *)
Fixpoint serve (rs : list request) (w : world) : list response * world :=
  match rs with
  | [] => ([], w)
  | r :: rest =>
      let '(resp, w1) := dispatch r w in
      let '(resps, w2) := serve rest w1 in
      (resp :: resps, w2)
  end.

End QueryHelper.

(** *** The SQL the service issues

    The engine for the four statements of this program over the two
    tables.  A statement of the fragment with the wrong number of
    bindings raises [ProgrammingError], and an integer binding that
    does not fit 64 bits raises [OverflowError], as sqlite3 does; every
    other statement text or binding is outside the fragment and is
    answered with an error, which no handler of the service can
    reach. *)

Definition bindings_error : exn :=
  ProgrammingError "Incorrect number of bindings supplied.".

Definition outside_fragment : exn :=
  OperationalError "statement outside the modelled fragment".

Definition overflow_error : exn :=
  OverflowError "Python int too large to convert to SQLite INTEGER".

(** The integers SQLite holds: signed, 64 bits.  Binding a Python int
    outside this range raises [OverflowError]. *)
Definition int64 (z : Z) : bool := (- 2 ^ 63 <=? z) && (z <? 2 ^ 63).
#[global] Arguments int64 : simpl never.

Definition select_by_id {A : Type} (to_row : A -> Row) (id_of : A -> Z)
    (table : list A) (args : list sqlval) : exn + list Row :=
  match args with
  | [SqlInt i] =>
      if int64 i
      then inr (map to_row (filter (fun a => id_of a = i) table))
      else inl overflow_error
  | [_] => inl outside_fragment
  | _ => inl bindings_error
  end.

Definition select_all {A : Type} (to_row : A -> Row) (table : list A)
    (args : list sqlval) : exn + list Row :=
  match args with
  | [] => inr (map to_row table)
  | _ => inl bindings_error
  end.

Definition sqlite_execute (db : database) (query : string) (args : list sqlval)
  : (exn + list Row) * database :=
  if String.eqb query "SELECT * FROM users" then
    (select_all row_of_user (users db) args, db)
  else if String.eqb query "SELECT * FROM users WHERE id = ?" then
    (select_by_id row_of_user user_id (users db) args, db)
  else if String.eqb query "SELECT * FROM products" then
    (select_all row_of_product (products db) args, db)
  else if String.eqb query "SELECT * FROM products WHERE id = ?" then
    (select_by_id row_of_product product_id (products db) args, db)
  else (inl outside_fragment, db).

#[global] Instance sqlite_model : Sqlite3 :=
  {| resultset := list Row;
     engine_execute := sqlite_execute;
     engine_fetchall := inr |}.

(** The JSON object of a user row, of a product row, and the
    not-found answer. *)
Definition user_json (u : user) : json :=
  JObj [("id", JInt (user_id u)); ("name", JStr (user_name u));
        ("email", JStr (user_email u))].

Definition product_json (p : product) : json :=
  JObj [("id", JInt (product_id p)); ("name", JStr (product_name p));
        ("price", JReal (product_price p))].

Definition not_found (msg : string) : response :=
  mkResponse 404 (BJson (JObj [("error", JStr msg)])).

(** A view that fetches by an id no SQLite integer can hold, and a
    request that is routed to such a view. *)
Definition id_overflows (e : endpoint) : bool :=
  match e with
  | EpGetUser i | EpGetProduct i => negb (int64 i)
  | _ => false
  end.

Definition overflows (r : request) : bool :=
  match route (req_method r) (req_path r) with
  | Matched e => id_overflows e
  | _ => false
  end.

(** A computation that leaves the database as it found it. *)
Definition keeps_store {A : Type} (m : M A) : Prop :=
  forall w, store (snd (m w)) = store w.

(** *** Sample data: two users and one product, no connection open *)

Definition ann : user := mkUser 1 "Ann" "ann@x.com".
Definition bob : user := mkUser 2 "Bob" "bob@x.com".
Definition pen : product := mkProduct 1 "pen" 1.5%float.
Definition sample_db : database := mkDatabase [ann; bob] [pen].
Definition sample_world : world := mkWorld sample_db ∅ 0 [].

(** A freshly created store: both tables empty. *)
Definition empty_world : world := mkWorld (mkDatabase [] []) ∅ 0 [].

End Api.

(** ** Flask/client.py: the Client Service *)

Module Client.
Import Api.

Record request : Type :=
  mkRequest { req_method : http_method;
              req_path : list string;
              req_form : list (string * string) }.

Section Handlers.
Context `{Sqlite3}.

(** Python's [float] applied to a form value; [None] stands for the
    [ValueError] of a text that is not a number. *)
Variable py_float : string -> option float.

(** Whether the app runs in debug mode, as its launcher
    [app.run(port=6000, debug=True)] sets it. *)
Variable debug : bool.

(** [str] of an int, as an f-string renders it. *)
Definition py_str (z : Z) : string := NilZero.string_of_int (Z.to_int z).

(** [requests.get], [requests.post] and [requests.delete] against
    [API_URL].  A [json] argument is serialised first, with
    [allow_nan=False]: a number that is not finite makes the call raise
    before anything is sent.  Otherwise the call is answered by the API
    Service, taken to be up, whose world the client runs against; no
    status of the answer makes the call raise. *)
Definition requests_call (m : http_method) (path : list string)
    (js : option json) : M response :=
  fun w =>
    match js with
    | Some j =>
        if json_finite j then
          let '(resp, w') := Api.dispatch (Api.mkRequest m path js) w in
          (inr resp, w')
        else (inl InvalidJSONError, w)
    | None =>
        let '(resp, w') := Api.dispatch (Api.mkRequest m path js) w in
        (inr resp, w')
    end.

Definition requests_get (path : list string) : M response :=
  requests_call GET path None.

Definition requests_post (path : list string) (js : json) : M response :=
  requests_call POST path (Some js).

Definition requests_delete (path : list string) : M response :=
  requests_call DELETE path None.

(** [r.json()] *)
Definition response_json (r : response) : M json :=
  match payload r with
  | BJson j => ret j
  | _ => raise JSONDecodeError
  end.

(** [request.form[key]] *)
Definition form_get (form : list (string * string)) (key : string) : M string :=
  match assoc key form with
  | Some v => ret v
  | None => raise (BadRequestKeyError key)
  end.

Definition render_template (name : string) (context : list (string * json))
  : response :=
  mkResponse 200 (BTemplate name context).

Definition redirect (location : string) : response :=
  mkResponse 302 (BRedirect location).

Definition url_for (view_name : string) : string :=
  if String.eqb view_name "show_users" then "/users"
  else if String.eqb view_name "show_products" then "/products"
  else "/".

Definition home : M response := ret (render_template "base.html" []).

Definition show_users : M response :=
  r ← requests_get ["users"];
  users ← response_json r;
  ret (render_template "users.html" [("users", users)]).

Definition add_user (form : list (string * string)) : M response :=
  name ← form_get form "name";
  email ← form_get form "email";
  requests_post ["users"] (JObj [("name", JStr name); ("email", JStr email)]);;
  ret (redirect (url_for "show_users")).

Definition delete_user (user_id : Z) : M response :=
  requests_delete ["users"; py_str user_id];;
  ret (redirect (url_for "show_users")).

Definition show_products : M response :=
  r ← requests_get ["products"];
  products ← response_json r;
  ret (render_template "products.html" [("products", products)]).

Definition add_product (form : list (string * string)) : M response :=
  name ← form_get form "name";
  price ← form_get form "price";
  match py_float price with
  | Some f =>
      requests_post ["products"] (JObj [("name", JStr name); ("price", JReal f)]);;
      ret (redirect (url_for "show_products"))
  | None => raise (ValueError "could not convert string to float")
  end.

Definition delete_product (product_id : Z) : M response :=
  requests_delete ["products"; py_str product_id];;
  ret (redirect (url_for "show_products")).

Inductive endpoint : Type :=
  | EpHome
  | EpShowUsers
  | EpAddUser
  | EpDeleteUser (user_id : Z)
  | EpShowProducts
  | EpAddProduct
  | EpDeleteProduct (product_id : Z).

Definition on_method (allowed m : http_method) (e : endpoint)
  : route_result endpoint :=
  match allowed, m with
  | GET, GET | POST, POST | DELETE, DELETE => Matched e
  | _, _ => MethodNotAllowed
  end.

Definition route (m : http_method) (path : list string) : route_result endpoint :=
  match path with
  | [] => on_method GET m EpHome
  | ["users"] => on_method GET m EpShowUsers
  | ["users"; "add"] => on_method POST m EpAddUser
  | ["users"; "delete"; seg] =>
      match int_converter seg with
      | Some i => on_method GET m (EpDeleteUser i)
      | None => NotFound
      end
  | ["products"] => on_method GET m EpShowProducts
  | ["products"; "add"] => on_method POST m EpAddProduct
  | ["products"; "delete"; seg] =>
      match int_converter seg with
      | Some i => on_method GET m (EpDeleteProduct i)
      | None => NotFound
      end
  | _ => NotFound
  end.

Definition view (e : endpoint) (form : list (string * string)) : M response :=
  match e with
  | EpHome => home
  | EpShowUsers => show_users
  | EpAddUser => add_user form
  | EpDeleteUser i => delete_user i
  | EpShowProducts => show_products
  | EpAddProduct => add_product form
  | EpDeleteProduct i => delete_product i
  end.

(** A missing form key is an [HTTPException] with code 400; in debug
    mode Flask traps it, and it is answered 500 like any other
    exception that escapes a view. *)
Definition error_status (ex : exn) : Z :=
  match ex with
  | BadRequestKeyError _ => if debug then 500 else 400
  | _ => 500
  end.

Definition dispatch (r : request) (w : world) : response * world :=
  match route (req_method r) (req_path r) with
  | Matched e =>
      match view e (req_form r) w with
      | (inr resp, w') => (resp, w')
      | (inl ex, w') => (mkResponse (error_status ex) BErrorPage, w')
      end
  | NotFound => (mkResponse 404 BErrorPage, w)
  | MethodNotAllowed => (mkResponse 405 BErrorPage, w)
  end.

End Handlers.

End Client.

(** ** Notions used to state further properties *)

(** The value of a decimal numeral read digit by digit from the left,
    starting from [acc]. *)
Fixpoint uint_value (acc : Z) (d : Decimal.uint) : Z :=
  match d with
  | Decimal.Nil => acc
  | Decimal.D0 l => uint_value (acc * 10 + 0) l
  | Decimal.D1 l => uint_value (acc * 10 + 1) l
  | Decimal.D2 l => uint_value (acc * 10 + 2) l
  | Decimal.D3 l => uint_value (acc * 10 + 3) l
  | Decimal.D4 l => uint_value (acc * 10 + 4) l
  | Decimal.D5 l => uint_value (acc * 10 + 5) l
  | Decimal.D6 l => uint_value (acc * 10 + 6) l
  | Decimal.D7 l => uint_value (acc * 10 + 7) l
  | Decimal.D8 l => uint_value (acc * 10 + 8) l
  | Decimal.D9 l => uint_value (acc * 10 + 9) l
  end.

(** Every open connection has a handle below the next one to be
    handed out, so a new connection never reuses an open handle. *)
Definition handles_fresh (w : Api.world) : Prop :=
  forall h : nat, h ∈ Api.open_conns w -> (h < Api.next_conn w)%nat.

(** A computation that sends at most [n] requests to the API Service. *)
Definition forwards_at_most {A : Type} (n : nat) (m : Api.M A) : Prop :=
  forall w, exists l,
    Api.access_log (snd (m w)) = Api.access_log w ++ l /\ (length l <= n)%nat.

(** A stand-in for [float] on form values in examples: it reads the
    texts [1.5] and [inf] and rejects every other text. *)
Definition sample_float (s : string) : option float :=
  if String.eqb s "1.5" then Some 1.5%float
  else if String.eqb s "inf" then Some PrimFloat.infinity
  else None.

(** * Properties *)

(** ** The Demo Service *)

Module DemoProofs.
Import Demo.

Lemma dispatch_post_item (s : string) (st : items_state) :
  dispatch (post_item s) st = (mkResponse 200 (BJson (JStr s)), st ++ [s]).
Proof. reflexivity. Qed.

Lemma serve_app (rs1 rs2 : list request) (st : items_state) :
  snd (serve (rs1 ++ rs2) st) = snd (serve rs2 (snd (serve rs1 st))).
Proof.
  revert st. induction rs1 as [|r rs1 IH]; intros st; simpl; [done|].
  destruct (dispatch r st) as [resp st1].
  specialize (IH st1).
  destruct (serve (rs1 ++ rs2) st1) as [resps st2].
  destruct (serve rs1 st1) as [resps1 st1']. simpl in *.
  rewrite IH. by destruct (serve rs2 st1').
Qed.

(** One request either leaves the list alone or appends the string of
    a create-item call. *)
Lemma dispatch_items (r : request) (st : items_state) :
  snd (dispatch r st) = st ++ created [r].
Proof.
  unfold dispatch, created.
  destruct (route (req_method r) (req_path r)) as [[]| |];
    simpl; rewrite ?app_nil_r; try done.
  destruct (req_item r); simpl; by rewrite ?app_nil_r.
Qed.

Lemma created_cons (r : request) (rs : list request) :
  created (r :: rs) = created [r] ++ created rs.
Proof.
  simpl. destruct (route (req_method r) (req_path r)) as [[]| |]; try done.
  by destruct (req_item r).
Qed.

Lemma serve_items (rs : list request) (st : items_state) :
  snd (serve rs st) = st ++ created rs.
Proof.
  revert st. induction rs as [|r rs IH]; intros st.
  - simpl. by rewrite app_nil_r.
  - rewrite created_cons, app_assoc, <- dispatch_items, <- IH.
    cbn [serve]. destruct (dispatch r st) as [resp st1]. cbn [snd].
    by destruct (serve rs st1).
Qed.

Lemma created_post_items (ss : list string) :
  created (map post_item ss) = ss.
Proof. induction ss as [|s ss IH]; simpl; [done | by rewrite IH]. Qed.

(** C7: [POST /items?item=s] answers [s] for every string [s], and
    from the empty list N such calls leave a list of length N (whether
    the same string is sent N times or N strings are sent in turn, in
    which case the list is exactly those strings in call order). *)
Theorem create_item_echo_and_count :
  (forall (s : string) (st : items_state),
      create_item s st = (PyStr s, st ++ [s]) /\
      fst (dispatch (post_item s) st) = mkResponse 200 (BJson (JStr s))) /\
  (forall (n : nat) (s : string),
      length (snd (serve (replicate n (post_item s)) items)) = n) /\
  (forall ss : list string,
      snd (serve (map post_item ss) items) = ss /\
      length (snd (serve (map post_item ss) items)) = length ss).
Proof.
  split; [|split].
  - intros s st. split; reflexivity.
  - intros n s. rewrite serve_items. unfold items. simpl.
    rewrite <- (fmap_replicate post_item n s).
    change (post_item <$> replicate n s) with (map post_item (replicate n s)).
    by rewrite created_post_items, length_replicate.
  - intros ss. rewrite serve_items, created_post_items. by split.
Qed.

(** C9: the [/about] handler returns the one-element set holding
    ['About Page'], which is not a dict, so the response body is the
    JSON array [["About Page"]], unlike the JSON object of [/]. *)
Theorem about_is_json_array (st : items_state) :
  about st = (PySet {["About Page"]}, st) /\
  size ({["About Page"]} : gset string) = 1%nat /\
  (forall d, fst (about st) <> PyDict d) /\
  dispatch (mkRequest GET ["about"] None) st =
    (mkResponse 200 (BJson (JArr [JStr "About Page"])), st) /\
  (exists fields,
      dispatch (mkRequest GET [] None) st = (mkResponse 200 (BJson (JObj fields)), st)).
Proof.
  split; [reflexivity|]. split; [apply size_singleton|].
  split; [intros d; discriminate|]. split.
  - unfold dispatch, ok. simpl. by rewrite elements_singleton.
  - eexists. reflexivity.
Qed.

(** C10: the items list is append-only.  Every request leaves it
    unchanged or adds exactly one element at its end, and after any
    sequence of requests the earlier list is a prefix of the later
    one, followed by the created strings in the order the calls were
    handled. *)
Theorem items_append_only :
  (forall (r : request) (st : items_state),
      snd (dispatch r st) = st \/ exists s, snd (dispatch r st) = st ++ [s]) /\
  (forall (rs : list request) (st : items_state),
      st `prefix_of` snd (serve rs st) /\
      snd (serve rs st) = st ++ created rs) /\
  (forall (rs1 rs2 : list request) (st : items_state),
      snd (serve rs1 st) `prefix_of` snd (serve (rs1 ++ rs2) st)).
Proof.
  split; [|split].
  - intros r st. rewrite dispatch_items. unfold created.
    destruct (route (req_method r) (req_path r)) as [[]| |];
      try (left; by rewrite app_nil_r).
    destruct (req_item r) as [s|]; [right; by exists s | left; by rewrite app_nil_r].
  - intros rs st. rewrite serve_items. split; [by apply prefix_app_r | done].
  - intros rs1 rs2 st. rewrite serve_app, (serve_items rs2).
    by apply prefix_app_r.
Qed.

End DemoProofs.

(** ** The query helper, for every SQL engine *)

Module QueryProofs.
Import Api.

Section AnyEngine.
Context `{Sqlite3}.

Lemma query_db_run (query : string) (args : list sqlval) (one : bool) (w : world) :
  query_db query args one w =
    match engine_execute (store w) query args with
    | (inl e, db') => (inl e, after_query db' false w)
    | (inr rs, db') =>
        match engine_fetchall rs with
        | inl e => (inl e, after_query db' false w)
        | inr rows => (inr (shape one rows), after_query db' true w)
        end
    end.
Proof.
  unfold query_db, mbind, M_bind, bind, sqlite3_connect, conn_cursor, ret,
    cursor_execute, after_query. cbn.
  destruct (decide (next_conn w ∈ {[next_conn w]} ∪ open_conns w)) as [_|Hn];
    [|exfalso; apply Hn; set_solver].
  destruct (engine_execute (store w) query args) as [[e|rs] db']; [done|].
  unfold cursor_fetchall, raise, ret, conn_close, shape. cbn.
  destruct (engine_fetchall rs) as [e|rows]; [done|].
  cbn. by destruct one.
Qed.

(** C4: when the engine runs the statement with the bindings in the
    order given and yields the rows [rows], [query_db] returns all of
    them in order if [one] is false, and if [one] is true the first
    of them, or [None] when there is none. *)
Theorem query_db_return_shape (query : string) (args : list sqlval)
    (one : bool) (w : world) (rs : resultset) (db' : database) (rows : list Row) :
  engine_execute (store w) query args = (inr rs, db') ->
  engine_fetchall rs = inr rows ->
  fst (query_db query args one w) =
    inr (if one
         then match rows with r :: _ => QRow r | [] => QNone end
         else QRows rows) /\
  (one = false -> fst (query_db query args one w) = inr (QRows rows)) /\
  (one = true -> rows = [] -> fst (query_db query args one w) = inr QNone) /\
  (one = true -> forall r, rows !! 0%nat = Some r ->
     fst (query_db query args one w) = inr (QRow r)).
Proof.
  intros Hex Hfetch. rewrite query_db_run, Hex, Hfetch. cbn. unfold shape.
  split; [by destruct one, rows|]. split; [by intros ->|].
  split; [by intros -> ->|]. intros -> r Hr. destruct rows; by inversion Hr.
Qed.

(** C3, amended: [query_db] closes the connection it opened when it
    returns; when executing the statement or fetching the rows
    raises, the exception leaves [query_db] with that connection
    still open. *)
Theorem query_db_closes_on_return_only (query : string) (args : list sqlval)
    (one : bool) (w : world) :
  let h := next_conn w in
  let out := query_db query args one w in
  match fst out with
  | inr _ =>
      (h ∉ open_conns (snd out)) /\
      open_conns (snd out) = ({[h]} ∪ open_conns w) ∖ {[h]}
  | inl e =>
      (h ∈ open_conns (snd out)) /\
      (fst (engine_execute (store w) query args) = inl e \/
       exists rs, fst (engine_execute (store w) query args) = inr rs /\
                  engine_fetchall rs = inl e)
  end.
Proof.
  cbn zeta. rewrite query_db_run.
  destruct (engine_execute (store w) query args) as [[e|rs] db'] eqn:Hex; cbn.
  - split; [set_solver | by left].
  - destruct (engine_fetchall rs) as [e|rows] eqn:Hf; cbn.
    + split; [set_solver | right; by exists rs].
    + split; [|done].
      intros [_ Hn]%elem_of_difference. apply Hn. by apply elem_of_singleton.
Qed.

End AnyEngine.

Lemma query_db_return_shape_witness :
  fst (query_db "SELECT * FROM users WHERE id = ?" [SqlInt 2] true sample_world)
    = inr (QRow (row_of_user bob)).
Proof.
  refine (proj1 (query_db_return_shape
                   "SELECT * FROM users WHERE id = ?" [SqlInt 2] true sample_world
                   [row_of_user bob] sample_db [row_of_user bob] _ _));
    reflexivity.
Defined.

(** C3 as stated fails: a statement run with too few bindings raises,
    and the connection [query_db] opened (handle 0) is still open. *)
Lemma query_db_error_leaves_connection_open :
  let out := query_db "SELECT * FROM users WHERE id = ?" [] true sample_world in
  fst out = inl bindings_error /\
  next_conn sample_world ∈ open_conns (snd out).
Proof.
  cbn zeta. rewrite query_db_run. cbn. split; [done | set_solver].
Qed.

End QueryProofs.

(** ** The URL converter *)

Module ConverterProofs.

Lemma decimal_digit_range (cp d : Z) : decimal_digit cp = Some d -> 0 <= d <= 9.
Proof.
  unfold decimal_digit.
  destruct (List.find _ decimal_zeros) as [zero|] eqn:Hf; cbn; [|discriminate].
  apply find_some in Hf as [_ Hin]. intros [= <-].
  apply andb_prop in Hin as [Hlo Hhi].
  apply Z.leb_le in Hlo. apply Z.leb_le in Hhi. lia.
Qed.

Lemma signs_are_not_digits : decimal_digit 45 = None /\ decimal_digit 43 = None.
Proof. split; reflexivity. Qed.

Lemma digits_value_nonneg (cps : list Z) (acc v : Z) :
  digits_value acc cps = Some v -> 0 <= acc -> 0 <= v.
Proof.
  revert acc. induction cps as [|cp cps IH]; intros acc Hv Hacc; cbn [digits_value] in Hv.
  - by injection Hv as <-.
  - destruct (decimal_digit cp) as [d|] eqn:Hd; [|discriminate].
    apply decimal_digit_range in Hd. apply IH in Hv; [done|lia].
Qed.

Lemma digits_value_all_digits (cps : list Z) (acc v : Z) :
  digits_value acc cps = Some v -> all_digits cps = true.
Proof.
  revert acc. induction cps as [|cp cps IH]; intros acc Hv; [done|].
  cbn [digits_value all_digits] in *. destruct (decimal_digit cp); [|discriminate].
  by apply IH in Hv.
Qed.

(** The converter yields integers that are not negative. *)
Lemma int_converter_nonneg (s : string) (i : Z) : int_converter s = Some i -> 0 <= i.
Proof.
  unfold int_converter. destruct (utf8_decode s) as [[|cp rest]|]; try discriminate.
  intros Hv. by apply (digits_value_nonneg _ 0 i Hv).
Qed.

(** The converter accepts only texts that denote an integer. *)
Lemma int_converter_integer_text (s : string) (i : Z) :
  int_converter s = Some i -> is_integer_text s = true.
Proof.
  unfold int_converter, is_integer_text.
  destruct (utf8_decode s) as [[|cp rest]|]; try discriminate.
  intros Hv. pose proof (digits_value_all_digits _ _ _ Hv) as Hall.
  destruct signs_are_not_digits as [Hminus Hplus].
  destruct (Z.eqb_spec cp 45) as [->|_].
  { cbn [digits_value] in Hv. by rewrite Hminus in Hv. }
  destruct (Z.eqb_spec cp 43) as [->|_].
  { cbn [digits_value] in Hv. by rewrite Hplus in Hv. }
  exact Hall.
Qed.

Lemma non_integer_not_converted (s : string) :
  is_integer_text s = false -> int_converter s = None.
Proof.
  intros Hn. destruct (int_converter s) as [i|] eqn:Hc; [|done].
  apply int_converter_integer_text in Hc. congruence.
Qed.

Lemma utf8_decode_ascii (c : ascii) (s : string) :
  byte_of c < 128 ->
  utf8_decode (String c s) = cons (byte_of c) <$> utf8_decode s.
Proof.
  intros Hc. apply Z.ltb_lt in Hc. cbn [utf8_decode]. cbv zeta. by rewrite Hc.
Qed.

(** The text of a decimal numeral decodes to digits that read back as
    its value. *)
Lemma string_of_uint_digits (d : Decimal.uint) :
  exists cps,
    utf8_decode (NilEmpty.string_of_uint d) = Some cps /\
    (forall acc, digits_value acc cps = Some (uint_value acc d)) /\
    (d <> Decimal.Nil -> cps <> []).
Proof.
  induction d as [|d IH|d IH|d IH|d IH|d IH|d IH|d IH|d IH|d IH|d IH];
    [by exists []|..];
    destruct IH as (cps & Hdec & Hval & _);
    cbn [NilEmpty.string_of_uint];
    rewrite utf8_decode_ascii by reflexivity; rewrite Hdec;
    eexists; (split; [reflexivity|]); (split; [|discriminate]);
    intros acc; cbn [digits_value uint_value];
    match goal with
    | |- context [decimal_digit ?cp] =>
        let v := eval vm_compute in (decimal_digit cp) in
        change (decimal_digit cp) with v
    end; apply Hval.
Qed.

Lemma of_uint_acc_value (d : Decimal.uint) (acc : positive) :
  Z.pos (Pos.of_uint_acc d acc) = uint_value (Z.pos acc) d.
Proof.
  revert acc. induction d; intros acc; cbn [Pos.of_uint_acc uint_value]; [done|..];
    rewrite IHd; f_equal; lia.
Qed.

Lemma of_uint_value (d : Decimal.uint) : Z.of_N (Pos.of_uint d) = uint_value 0 d.
Proof.
  induction d; cbn [Pos.of_uint uint_value]; [done| |..];
    rewrite ?IHd; try done; cbn [Z.of_N]; by rewrite of_uint_acc_value.
Qed.

Lemma int_converter_py_str_pos (p : positive) :
  int_converter (Client.py_str (Z.pos p)) = Some (Z.pos p).
Proof.
  unfold Client.py_str. cbn [Z.to_int NilZero.string_of_int].
  pose proof (Unsigned.to_uint_nonnil p) as Hnn.
  pose proof (Unsigned.of_to p) as Hof.
  apply (f_equal Z.of_N) in Hof. rewrite of_uint_value in Hof. cbn [Z.of_N] in Hof.
  destruct (string_of_uint_digits (Pos.to_uint p)) as (cps & Hdec & Hval & Hne).
  assert (Hs : NilZero.string_of_uint (Pos.to_uint p)
               = NilEmpty.string_of_uint (Pos.to_uint p)).
  { unfold NilZero.string_of_uint. by destruct (Pos.to_uint p). }
  rewrite Hs. unfold int_converter. rewrite Hdec.
  destruct cps as [|cp rest]; [by destruct (Hne Hnn)|].
  by rewrite Hval, Hof.
Qed.

(** The decimal rendering of an id that is not negative is read back
    by the converter as that id. *)
Lemma int_converter_py_str (z : Z) :
  0 <= z -> int_converter (Client.py_str z) = Some z.
Proof.
  intros Hz. destruct z as [|p|p]; [reflexivity|apply int_converter_py_str_pos|lia].
Qed.

Lemma int_converter_py_str_neg (p : positive) :
  int_converter (Client.py_str (Z.neg p)) = None.
Proof.
  unfold Client.py_str. cbn [Z.to_int NilZero.string_of_int].
  unfold int_converter. rewrite utf8_decode_ascii by reflexivity.
  destruct (utf8_decode _) as [cps|]; [|done].
  cbn [fmap option_fmap option_map digits_value].
  change (byte_of "-") with 45. by rewrite (proj1 signs_are_not_digits).
Qed.

End ConverterProofs.
(** ** The API Service over the modelled engine *)

Module ApiProofs.
Import Api.



(** What the four handlers compute, in terms of the tables. *)
Lemma get_users_run (w : world) :
  get_users w =
    (inr (jsonify (JArr (map user_json (users (store w))))),
     after_query (store w) true w).
Proof.
  unfold get_users, mbind, M_bind, bind. rewrite QueryProofs.query_db_run. cbn.
  unfold ret, jsonify. do 4 f_equal. rewrite map_map. done.
Qed.

Lemma get_products_run (w : world) :
  get_products w =
    (inr (jsonify (JArr (map product_json (products (store w))))),
     after_query (store w) true w).
Proof.
  unfold get_products, mbind, M_bind, bind. rewrite QueryProofs.query_db_run. cbn.
  unfold ret, jsonify. do 4 f_equal. rewrite map_map. done.
Qed.

Lemma get_user_run (i : Z) (w : world) :
  get_user i w =
    if int64 i then
      (inr (match filter (fun u => user_id u = i) (users (store w)) with
            | u :: _ => jsonify (user_json u)
            | [] => not_found "User not found"
            end),
       after_query (store w) true w)
    else (inl overflow_error, after_query (store w) false w).
Proof.
  unfold get_user, mbind, M_bind, bind. rewrite QueryProofs.query_db_run. cbn.
  destruct (int64 i); [|done]. by destruct (filter _ _).
Qed.

Lemma get_product_run (i : Z) (w : world) :
  get_product i w =
    if int64 i then
      (inr (match filter (fun p => product_id p = i) (products (store w)) with
            | p :: _ => jsonify (product_json p)
            | [] => not_found "Product not found"
            end),
       after_query (store w) true w)
    else (inl overflow_error, after_query (store w) false w).
Proof.
  unfold get_product, mbind, M_bind, bind. rewrite QueryProofs.query_db_run. cbn.
  destruct (int64 i); [|done]. by destruct (filter _ _).
Qed.

Lemma dispatch_matched (r : request) (w : world) (e : endpoint) :
  route (req_method r) (req_path r) = Matched e ->
  dispatch r w =
    match view e (log_request r w) with
    | (inr resp, w') => (resp, w')
    | (inl ex, w') => (mkResponse (status_of_exn ex) BErrorPage, w')
    end.
Proof. intros Hr. unfold dispatch. by rewrite Hr. Qed.





(** C5: whatever the users table holds, [GET /users] answers a JSON
    array with as many elements as the table has rows, the element at
    each position being the id, name and email of the row at that
    position, so that every element is the field mapping of a stored
    row. *)
Theorem get_users_lists_every_row (w : world) :
  exists js : list json,
    fst (get_users w) = inr (mkResponse 200 (BJson (JArr js))) /\
    fst (dispatch (mkRequest GET ["users"] None) w) = mkResponse 200 (BJson (JArr js)) /\
    length js = length (users (store w)) /\
    (forall (i : nat) (u : user),
        users (store w) !! i = Some u -> js !! i = Some (user_json u)) /\
    (forall j, j ∈ js -> exists u, u ∈ users (store w) /\ j = user_json u).
Proof.
  exists (map user_json (users (store w))). split; [by rewrite get_users_run|].
  split.
  { rewrite (dispatch_matched _ _ EpGetUsers) by done. cbn [view].
    by rewrite get_users_run. }
  split; [by rewrite length_map|]. split.
  - intros i u Hi. change (map user_json ?l) with (user_json <$> l).
    by rewrite list_lookup_fmap, Hi.
  - intros j Hj. change (map user_json ?l) with (user_json <$> l) in Hj.
    apply list_elem_of_fmap in Hj as (u & -> & Hu). by exists u.
Qed.

(** The modelled engine runs SELECT statements only: it hands the
    database back as it was. *)
Lemma sqlite_execute_store (db : database) (query : string) (args : list sqlval) :
  snd (sqlite_execute db query args) = db.
Proof. unfold sqlite_execute. by repeat case_match. Qed.

Lemma keeps_store_ret {A : Type} (a : A) : keeps_store (ret a).
Proof. by intros w. Qed.

Lemma keeps_store_raise {A : Type} (e : exn) : keeps_store (raise (A:=A) e).
Proof. by intros w. Qed.

Lemma keeps_store_bind {A B : Type} (m : M A) (k : A -> M B) :
  keeps_store m -> (forall a, keeps_store (k a)) -> keeps_store (m ≫= k).
Proof.
  intros Hm Hk w. unfold mbind, M_bind, bind. specialize (Hm w).
  destruct (m w) as [[e|a] w1]; cbn in *; [done|].
  by rewrite Hk.
Qed.

Lemma keeps_store_query_db (query : string) (args : list sqlval) (one : bool) :
  keeps_store (query_db query args one).
Proof.
  intros w. rewrite QueryProofs.query_db_run. cbn [engine_execute sqlite_model].
  pose proof (sqlite_execute_store (store w) query args) as Hs.
  destruct (sqlite_execute (store w) query args) as [[e|rs] db']; cbn in *; by subst.
Qed.

Lemma keeps_store_view (e : endpoint) : keeps_store (view e).
Proof.
  destruct e; cbn [view]; try (by intros w);
    apply keeps_store_bind; try apply keeps_store_query_db;
    intros r; unfold list_response, one_response;
    repeat case_match;
    (apply keeps_store_ret || apply keeps_store_raise).
Qed.

Lemma dispatch_store (r : request) (w : world) : store (snd (dispatch r w)) = store w.
Proof.
  unfold dispatch.
  destruct (route (req_method r) (req_path r)) as [e| |]; [|done..].
  pose proof (keeps_store_view e (log_request r w)) as Hk.
  by destruct (view e (log_request r w)) as [[ex|resp] w'].
Qed.

Lemma serve_store (rs : list request) (w : world) : store (snd (serve rs w)) = store w.
Proof.
  revert w. induction rs as [|r rs IH]; intros w; [done|].
  cbn [serve]. pose proof (dispatch_store r w) as Hd.
  destruct (dispatch r w) as [resp w1]. specialize (IH w1).
  destruct (serve rs w1) as [resps w2]. cbn in *. congruence.
Qed.

(** C6: no endpoint of the API Service changes the users or products
    table.  The database after a view, after a request, and after any
    sequence of requests is the database before it, so the ids of the
    rows stay the same and stay unique. *)
Theorem api_is_read_only :
  (forall e : endpoint, keeps_store (view e)) /\
  (forall (r : request) (w : world), store (snd (dispatch r w)) = store w) /\
  (forall (rs : list request) (w : world),
      let w' := snd (serve rs w) in
      store w' = store w /\
      map user_id (users (store w')) = map user_id (users (store w)) /\
      map product_id (products (store w')) = map product_id (products (store w)) /\
      (NoDup (map user_id (users (store w'))) <-> NoDup (map user_id (users (store w)))) /\
      (NoDup (map product_id (products (store w')))
         <-> NoDup (map product_id (products (store w))))).
Proof.
  split; [apply keeps_store_view|]. split; [apply dispatch_store|].
  intros rs w. cbn zeta. by rewrite serve_store.
Qed.

End ApiProofs.

Module ClientProofs.
Import Api.

Section AnyEngine.
Context `{Sqlite3}.
Variable py_float : string -> option float.
Variable debug : bool.

Lemma form_get_missing (form : list (string * string)) (key : string) (w : world) :
  assoc key form = None ->
  Client.form_get form key w = (inl (BadRequestKeyError key), w).
Proof. intros Hk. unfold Client.form_get. by rewrite Hk. Qed.

Lemma add_user_missing (form : list (string * string)) (w : world) :
  assoc "name" form = None \/ assoc "email" form = None ->
  exists key, Client.add_user form w = (inl (BadRequestKeyError key), w).
Proof.
  intros Hm. unfold Client.add_user, mbind, M_bind, bind.
  destruct (assoc "name" form) as [name|] eqn:Hn.
  - destruct Hm as [Hm|Hm]; [done|]. exists "email".
    unfold Client.form_get at 1. rewrite Hn. cbn.
    by rewrite (form_get_missing form "email" w Hm).
  - exists "name". by rewrite (form_get_missing form "name" w Hn).
Qed.

Lemma add_product_missing (form : list (string * string)) (w : world) :
  assoc "name" form = None \/ assoc "price" form = None ->
  exists key, Client.add_product py_float form w = (inl (BadRequestKeyError key), w).
Proof.
  intros Hm. unfold Client.add_product, mbind, M_bind, bind.
  destruct (assoc "name" form) as [name|] eqn:Hn.
  - destruct Hm as [Hm|Hm]; [done|]. exists "price".
    unfold Client.form_get at 1. rewrite Hn. cbn.
    by rewrite (form_get_missing form "price" w Hm).
  - exists "name". by rewrite (form_get_missing form "name" w Hn).
Qed.

(** C8, amended: a path parameter that is not an integer matches no
    route of [GET /users/{id}], [GET /products/{id}] or the client's
    delete routes, so the request is answered 404 by the router and
    no handler runs.  An add-form submission that lacks name, email
    or price does match its route: the handler runs and its form
    lookup raises the bad-request error before anything is forwarded,
    so the world of the API Service is untouched; the client answers
    400, or 500 when it runs in debug mode. *)
Theorem malformed_input_rejection :
  (forall (m : http_method) (seg : string),
      is_integer_text seg = false ->
      Api.route m ["users"; seg] = NotFound /\
      Api.route m ["products"; seg] = NotFound /\
      Client.route m ["users"; "delete"; seg] = NotFound /\
      Client.route m ["products"; "delete"; seg] = NotFound /\
      (forall js w,
          fst (Api.dispatch (Api.mkRequest m ["users"; seg] js) w)
            = mkResponse 404 BErrorPage /\
          fst (Api.dispatch (Api.mkRequest m ["products"; seg] js) w)
            = mkResponse 404 BErrorPage) /\
      (forall form w,
          Client.dispatch py_float debug (Client.mkRequest m ["users"; "delete"; seg] form) w
            = (mkResponse 404 BErrorPage, w) /\
          Client.dispatch py_float debug (Client.mkRequest m ["products"; "delete"; seg] form) w
            = (mkResponse 404 BErrorPage, w))) /\
  (forall (form : list (string * string)) (w : world),
      assoc "name" form = None \/ assoc "email" form = None ->
      Client.route POST ["users"; "add"] = Matched Client.EpAddUser /\
      (exists key, Client.add_user form w = (inl (BadRequestKeyError key), w)) /\
      Client.dispatch py_float debug (Client.mkRequest POST ["users"; "add"] form) w
        = (mkResponse (if debug then 500 else 400) BErrorPage, w)) /\
  (forall (form : list (string * string)) (w : world),
      assoc "name" form = None \/ assoc "price" form = None ->
      Client.route POST ["products"; "add"] = Matched Client.EpAddProduct /\
      (exists key,
          Client.add_product py_float form w = (inl (BadRequestKeyError key), w)) /\
      Client.dispatch py_float debug (Client.mkRequest POST ["products"; "add"] form) w
        = (mkResponse (if debug then 500 else 400) BErrorPage, w)).
Proof.
  split; [|split].
  - intros m seg Hseg. apply ConverterProofs.non_integer_not_converted in Hseg.
    assert (Hu : Api.route m ["users"; seg] = NotFound) by (cbn; by rewrite Hseg).
    assert (Hp : Api.route m ["products"; seg] = NotFound) by (cbn; by rewrite Hseg).
    assert (Hdu : Client.route m ["users"; "delete"; seg] = NotFound)
      by (cbn; by rewrite Hseg).
    assert (Hdp : Client.route m ["products"; "delete"; seg] = NotFound)
      by (cbn; by rewrite Hseg).
    repeat split; try done.
    + unfold Api.dispatch. cbn [Api.req_method Api.req_path]. by rewrite Hu.
    + unfold Api.dispatch. cbn [Api.req_method Api.req_path]. by rewrite Hp.
    + unfold Client.dispatch. cbn [Client.req_method Client.req_path]. by rewrite Hdu.
    + unfold Client.dispatch. cbn [Client.req_method Client.req_path]. by rewrite Hdp.
  - intros form w Hm. split; [done|].
    destruct (add_user_missing form w Hm) as [key Hk]. split; [by exists key|].
    unfold Client.dispatch. cbn. by rewrite Hk.
  - intros form w Hm. split; [done|].
    destruct (add_product_missing form w Hm) as [key Hk]. split; [by exists key|].
    unfold Client.dispatch. cbn. by rewrite Hk.
Qed.

(** With both fields present the handler forwards one POST to
    [/users] of the API Service and redirects to the listing. *)
Lemma add_user_run (name email : string) (w : world) :
  Client.add_user [("name", name); ("email", email)] w =
    (inr (Client.redirect "/users"),
     log_request
       (Api.mkRequest POST ["users"]
          (Some (JObj [("name", JStr name); ("email", JStr email)]))) w).
Proof. reflexivity. Qed.

End AnyEngine.

Lemma malformed_input_rejection_witness :
  Api.route GET ["users"; "abc"] = NotFound /\
  Client.route GET ["users"; "delete"; "abc"] = NotFound /\
  (exists key,
      Client.add_user [("name", "Ann")] empty_world
        = (inl (BadRequestKeyError key), empty_world)) /\
  (exists key,
      Client.add_product (fun _ => None) [("name", "pen")] empty_world
        = (inl (BadRequestKeyError key), empty_world)).
Proof.
  destruct (malformed_input_rejection (fun _ => None) true) as (Hpath & Huser & Hprod).
  destruct (Hpath GET "abc" eq_refl) as (Hu & _ & Hd & _).
  destruct (Huser [("name", "Ann")] empty_world (or_intror eq_refl)) as (_ & Hk & _).
  destruct (Hprod [("name", "pen")] empty_world (or_intror eq_refl)) as (_ & Hq & _).
  exact (conj Hu (conj Hd (conj Hk Hq))).
Defined.

(** C8 as stated fails for form fields: a submission of the add-user
    form without an email is routed to the handler, whose first form
    lookup succeeds and whose second one raises. *)
Lemma missing_email_reaches_handler :
  Client.route POST ["users"; "add"] = Matched Client.EpAddUser /\
  Client.form_get [("name", "Ann")] "name" empty_world = (inr "Ann", empty_world) /\
  Client.add_user [("name", "Ann")] empty_world
    = (inl (BadRequestKeyError "email"), empty_world).
Proof. repeat split. Qed.

(** The API Service has no rule that accepts the forwarded POST, so
    the listing after an add-user submission is the listing before. *)
Lemma add_user_leaves_listing (name email : string) (w : world) :
  let out := Client.add_user [("name", name); ("email", email)] w in
  Api.route POST ["users"] = MethodNotAllowed /\
  store (snd out) = store w /\
  fst (Api.dispatch (Api.mkRequest GET ["users"] None) (snd out))
    = fst (Api.dispatch (Api.mkRequest GET ["users"] None) w).
Proof.
  cbn zeta. rewrite add_user_run. split; [done|]. split; [done|].
  rewrite !(ApiProofs.dispatch_matched _ _ EpGetUsers) by done.
  cbn [view]. by rewrite !ApiProofs.get_users_run.
Qed.

(** C1 on the code: submitting Ann through the add-user form of the
    client against an empty users table is routed to the handler and
    redirected, the API Service answers the forwarded POST with 405,
    and a following [GET /users] still lists no user. *)
Theorem add_user_ann_not_listed :
  let form := [("name", "Ann"); ("email", "ann@x.com")] in
  let out := Client.add_user form empty_world in
  Client.route POST ["users"; "add"] = Matched Client.EpAddUser /\
  fst out = inr (Client.redirect "/users") /\
  fst (Api.dispatch (Api.mkRequest POST ["users"]
                       (Some (JObj [("name", JStr "Ann"); ("email", JStr "ann@x.com")])))
         empty_world) = mkResponse 405 BErrorPage /\
  users (store (snd out)) = [] /\
  fst (Api.dispatch (Api.mkRequest GET ["users"] None) (snd out))
    = mkResponse 200 (BJson (JArr [])).
Proof.
  cbn zeta. rewrite add_user_run. do 4 (split; [reflexivity|]).
  rewrite (ApiProofs.dispatch_matched _ _ EpGetUsers) by done.
  cbn [view]. by rewrite ApiProofs.get_users_run.
Qed.

End ClientProofs.

Module RoutingProofs.
Import Api.

Ltac split_matches :=
  repeat match goal with
         | |- context [match ?x with _ => _ end] => destruct x
         end.

Ltac split_matches_in H :=
  repeat match type of H with
         | context [match ?x with _ => _ end] => destruct x
         end.

(** X1: the decimal text the client puts into a forwarded URL for an
    id is read back by the URL converter as the same id when the id is
    not negative, and is rejected by the converter when it is. *)
Theorem rendered_id_parses_back (z : Z) :
  int_converter (Client.py_str z) = if 0 <=? z then Some z else None.
Proof.
  destruct z as [|p|p];
    [reflexivity
    |apply ConverterProofs.int_converter_py_str_pos
    |apply ConverterProofs.int_converter_py_str_neg].
Qed.

Lemma api_route_by_id (m : http_method) (path : list string) (e : endpoint) :
  route m path = Matched e ->
  match e with
  | EpGetUser i | EpGetProduct i => 0 <= i
  | _ => True
  end.
Proof.
  intros Hr. unfold route in Hr.
  repeat match type of Hr with
         | context [match int_converter ?seg with _ => _ end] =>
             let Hc := fresh "Hc" in
             destruct (int_converter seg) eqn:Hc;
             [apply ConverterProofs.int_converter_nonneg in Hc|]
         | context [match ?x with _ => _ end] => destruct x
         end;
    try discriminate; destruct m; cbn in Hr; try discriminate;
    injection Hr as <-; done.
Qed.

Lemma client_route_by_id (m : http_method) (path : list string) (e : Client.endpoint) :
  Client.route m path = Matched e ->
  match e with
  | Client.EpDeleteUser i | Client.EpDeleteProduct i => 0 <= i
  | _ => True
  end.
Proof.
  intros Hr. unfold Client.route in Hr.
  repeat match type of Hr with
         | context [match int_converter ?seg with _ => _ end] =>
             let Hc := fresh "Hc" in
             destruct (int_converter seg) eqn:Hc;
             [apply ConverterProofs.int_converter_nonneg in Hc|]
         | context [match ?x with _ => _ end] => destruct x
         end;
    try discriminate; destruct m; cbn in Hr; try discriminate;
    injection Hr as <-; done.
Qed.

(** X2: no handler is reached through its route with a negative id.
    Whatever the method and the path of a request, when the API
    Service routes it to [get_user] or [get_product], or the Client
    Service routes it to [delete_user] or [delete_product], the id the
    handler is called with is not negative. *)
Theorem routed_ids_are_never_negative (m : http_method) (path : list string) (i : Z) :
  (route m path = Matched (EpGetUser i) -> 0 <= i) /\
  (route m path = Matched (EpGetProduct i) -> 0 <= i) /\
  (Client.route m path = Matched (Client.EpDeleteUser i) -> 0 <= i) /\
  (Client.route m path = Matched (Client.EpDeleteProduct i) -> 0 <= i).
Proof.
  split; [|split; [|split]]; intros Hr.
  - exact (api_route_by_id _ _ _ Hr).
  - exact (api_route_by_id _ _ _ Hr).
  - exact (client_route_by_id _ _ _ Hr).
  - exact (client_route_by_id _ _ _ Hr).
Qed.

Lemma routed_ids_are_never_negative_witness :
  route GET ["users"; "42"] = Matched (EpGetUser 42) /\ 0 <= 42.
Proof.
  destruct (routed_ids_are_never_negative GET ["users"; "42"] 42) as (Hu & _).
  exact (conj eq_refl (Hu eq_refl)).
Defined.

Section AnyEngineRouting.
Context `{Sqlite3}.

Lemma route_non_get (m : http_method) (path : list string) :
  m <> GET -> route m path = NotFound \/ route m path = MethodNotAllowed.
Proof.
  intros Hm. assert (Hg : forall e, get_only m e = MethodNotAllowed) by (by destruct m).
  unfold route. split_matches; rewrite ?Hg; auto.
Qed.

(** X3: a request to the API Service with a method other than GET
    never reaches a view: it is answered 404 or 405 with an error
    page, and nothing but the access log changes (no connection is
    opened and the store is not read or written). *)
Theorem non_get_request_runs_no_view (r : request) (w : world) :
  req_method r <> GET ->
  snd (dispatch r w) = log_request r w /\
  payload (fst (dispatch r w)) = BErrorPage /\
  (status (fst (dispatch r w)) = 404 \/ status (fst (dispatch r w)) = 405).
Proof.
  intros Hm. unfold dispatch.
  destruct (route_non_get (req_method r) (req_path r) Hm) as [-> | ->]; cbn; auto.
Qed.

End AnyEngineRouting.

Lemma non_get_request_runs_no_view_witness :
  snd (dispatch (mkRequest POST ["users"] None) sample_world)
    = log_request (mkRequest POST ["users"] None) sample_world /\
  payload (fst (dispatch (mkRequest POST ["users"] None) sample_world)) = BErrorPage.
Proof.
  assert (Hm : req_method (mkRequest POST ["users"] None) <> GET) by discriminate.
  destruct (non_get_request_runs_no_view (mkRequest POST ["users"] None) sample_world Hm)
    as (Hw & Hp & _).
  exact (conj Hw Hp).
Defined.

End RoutingProofs.

Module ServiceProofs.
Import Api.

Lemma after_query_fresh (db : database) (closed : bool) (w : world) :
  handles_fresh w -> handles_fresh (after_query db closed w).
Proof.
  intros Hfresh h. unfold after_query. cbn. intros Hin.
  assert (Hin' : h = next_conn w \/ h ∈ open_conns w).
  { destruct closed.
    - apply elem_of_difference in Hin as [Hin _].
      apply elem_of_union in Hin as [Hin|Hin]; [left; by apply elem_of_singleton in Hin|by right].
    - apply elem_of_union in Hin as [Hin|Hin]; [left; by apply elem_of_singleton in Hin|by right]. }
  destruct Hin' as [->|Hin']; [lia|]. apply Hfresh in Hin'. lia.
Qed.

Lemma after_query_closed (db : database) (w : world) :
  handles_fresh w -> open_conns (after_query db true w) = open_conns w.
Proof.
  intros Hfresh. unfold after_query. cbn. apply set_eq. intros h.
  rewrite elem_of_difference, elem_of_union, elem_of_singleton.
  split; [intros [[->|Hin] Hne]; done|].
  intros Hin. split; [by right|]. intros ->. apply Hfresh in Hin. lia.
Qed.

Section AnyEngineHandles.
Context `{Sqlite3}.

(** X4: for every SQL engine, a call of [query_db] takes exactly one
    new connection handle and leaves the access log alone; when every
    open handle was below the next one before the call, the same holds
    after it, a call that returns leaves the set of open connections
    as it found it, and a call that raises leaves exactly its own
    connection open in addition. *)
Theorem query_db_keeps_handles_fresh (query : string) (args : list sqlval)
    (one : bool) (w : world) :
  handles_fresh w ->
  let out := query_db query args one w in
  handles_fresh (snd out) /\
  next_conn (snd out) = S (next_conn w) /\
  access_log (snd out) = access_log w /\
  (forall v, fst out = inr v -> open_conns (snd out) = open_conns w) /\
  (forall e, fst out = inl e -> open_conns (snd out) = {[next_conn w]} ∪ open_conns w).
Proof.
  intros Hfresh. cbn zeta. rewrite QueryProofs.query_db_run.
  destruct (engine_execute (store w) query args) as [[e|rs] db']; cbn [fst snd].
  - split; [by apply after_query_fresh|]. repeat split; done.
  - destruct (engine_fetchall rs) as [e|rows]; cbn [fst snd].
    + split; [by apply after_query_fresh|]. repeat split; done.
    + split; [by apply after_query_fresh|]. repeat split; try done.
      intros _ _. by apply after_query_closed.
Qed.

End AnyEngineHandles.

Lemma sample_world_fresh : handles_fresh sample_world.
Proof. intros h Hh. by apply elem_of_empty in Hh. Qed.

Lemma query_db_keeps_handles_fresh_witness :
  next_conn (snd (query_db "SELECT * FROM users" [] false sample_world)) = 1%nat /\
  open_conns (snd (query_db "SELECT * FROM users" [] false sample_world))
    = open_conns sample_world.
Proof.
  destruct (query_db_keeps_handles_fresh "SELECT * FROM users" [] false sample_world
              sample_world_fresh) as (_ & Hn & _ & Hok & _).
  split; [exact Hn|]. eapply Hok. rewrite QueryProofs.query_db_run. reflexivity.
Defined.

(** A view that fetches by an id beyond 64 bits raises and leaves its
    connection open; every other view returns a response with status
    200 or 404 and leaves no connection open. *)
Lemma view_outcome (e : endpoint) (w : world) :
  if id_overflows e
  then view e w = (inl overflow_error, after_query (store w) false w)
  else exists resp,
         fst (view e w) = inr resp /\
         (status resp = 200 \/ status resp = 404) /\
         (snd (view e w) = w \/ snd (view e w) = after_query (store w) true w).
Proof.
  destruct e as [| |i| |i]; cbn [view id_overflows].
  - eexists. split; [reflexivity|]. split; [by left|by left].
  - rewrite ApiProofs.get_users_run. eexists. split; [reflexivity|].
    split; [by left|by right].
  - rewrite ApiProofs.get_user_run. destruct (int64 i); cbn [negb]; [|done].
    eexists. split; [reflexivity|].
    split; [|by right]. destruct (filter _ _); [by right|by left].
  - rewrite ApiProofs.get_products_run. eexists. split; [reflexivity|].
    split; [by left|by right].
  - rewrite ApiProofs.get_product_run. destruct (int64 i); cbn [negb]; [|done].
    eexists. split; [reflexivity|].
    split; [|by right]. destruct (filter _ _); [by right|by left].
Qed.

Lemma dispatch_outcome (r : request) (w : world) :
  if overflows r
  then dispatch r w =
         (mkResponse 500 BErrorPage, after_query (store w) false (log_request r w))
  else (status (fst (dispatch r w)) = 200 \/ status (fst (dispatch r w)) = 404 \/
        status (fst (dispatch r w)) = 405) /\
       (snd (dispatch r w) = log_request r w \/
        snd (dispatch r w) = after_query (store w) true (log_request r w)).
Proof.
  unfold overflows, dispatch.
  destruct (route (req_method r) (req_path r)) as [e| |]; [|by auto..].
  pose proof (view_outcome e (log_request r w)) as Hv.
  destruct (id_overflows e).
  - by rewrite Hv.
  - destruct Hv as (resp & Hresp & Hst & Hw).
    destruct (view e (log_request r w)) as [[ex|resp'] w']; cbn [fst snd] in *;
      [discriminate|].
    injection Hresp as ->. split; [destruct Hst; auto|exact Hw].
Qed.





Lemma view_answer_of_store (e : endpoint) (w1 w2 : world) :
  store w1 = store w2 -> fst (view e w1) = fst (view e w2).
Proof.
  intros Hs. destruct e as [| |i| |i]; cbn [view]; [done|..];
    rewrite ?ApiProofs.get_users_run, ?ApiProofs.get_user_run,
      ?ApiProofs.get_products_run, ?ApiProofs.get_product_run;
    try destruct (int64 i); cbn; by rewrite ?Hs.
Qed.

Lemma dispatch_answer_of_store (r : request) (w1 w2 : world) :
  store w1 = store w2 -> fst (dispatch r w1) = fst (dispatch r w2).
Proof.
  intros Hs. unfold dispatch.
  destruct (route (req_method r) (req_path r)) as [e| |]; [|done..].
  pose proof (view_answer_of_store e (log_request r w1) (log_request r w2) Hs) as Hv.
  destruct (view e (log_request r w1)) as [[ex1|resp1] w1'],
           (view e (log_request r w2)) as [[ex2|resp2] w2']; cbn in *; by simplify_eq.
Qed.

(** X7: reads are repeatable.  The answer of the API Service to a
    request is the same before and after any sequence of other
    requests to it, whatever their methods and paths. *)
Theorem reads_are_repeatable (rs : list request) (r : request) (w : world) :
  fst (dispatch r (snd (serve rs w))) = fst (dispatch r w).
Proof. apply dispatch_answer_of_store, ApiProofs.serve_store. Qed.

(** X8: whatever the products table holds, [GET /products] answers
    200 with a JSON array that has one element per row, the element at
    each position being the id, name and price of the row at that
    position. *)
Theorem get_products_lists_every_row (w : world) :
  exists js : list json,
    fst (get_products w) = inr (mkResponse 200 (BJson (JArr js))) /\
    fst (dispatch (mkRequest GET ["products"] None) w) = mkResponse 200 (BJson (JArr js)) /\
    length js = length (products (store w)) /\
    (forall (i : nat) (p : product),
        products (store w) !! i = Some p -> js !! i = Some (product_json p)) /\
    (forall j, j ∈ js -> exists p, p ∈ products (store w) /\ j = product_json p).
Proof.
  exists (map product_json (products (store w))).
  split; [by rewrite ApiProofs.get_products_run|]. split.
  { rewrite (ApiProofs.dispatch_matched _ _ EpGetProducts) by done. cbn [view].
    by rewrite ApiProofs.get_products_run. }
  split; [by rewrite length_map|]. split.
  - intros i p Hi. change (map product_json ?l) with (product_json <$> l).
    by rewrite list_lookup_fmap, Hi.
  - intros j Hj. change (map product_json ?l) with (product_json <$> l) in Hj.
    apply list_elem_of_fmap in Hj as (p & -> & Hp). by exists p.
Qed.

End ServiceProofs.

Module PageProofs.
Import Api.

Lemma dispatch_get_users (js : option json) (w : world) :
  Api.dispatch (mkRequest GET ["users"] js) w =
    (jsonify (JArr (map user_json (users (store w)))),
     after_query (store w) true (log_request (mkRequest GET ["users"] js) w)).
Proof.
  rewrite (ApiProofs.dispatch_matched _ _ EpGetUsers) by done. cbn [view].
  by rewrite ApiProofs.get_users_run.
Qed.

Lemma dispatch_get_products (js : option json) (w : world) :
  Api.dispatch (mkRequest GET ["products"] js) w =
    (jsonify (JArr (map product_json (products (store w)))),
     after_query (store w) true (log_request (mkRequest GET ["products"] js) w)).
Proof.
  rewrite (ApiProofs.dispatch_matched _ _ EpGetProducts) by done. cbn [view].
  by rewrite ApiProofs.get_products_run.
Qed.

(** X9: the listing pages show the whole tables.  [show_users]
    renders [users.html] with the JSON array of all user rows, in table
    order, as [users], and [show_products] renders [products.html]
    with all product rows as [products]. *)
Theorem show_pages_render_the_listing (w : world) :
  fst (Client.show_users w) =
    inr (mkResponse 200
           (BTemplate "users.html"
              [("users", JArr (map user_json (users (store w))))])) /\
  fst (Client.show_products w) =
    inr (mkResponse 200
           (BTemplate "products.html"
              [("products", JArr (map product_json (products (store w))))])).
Proof.
  split.
  - unfold Client.show_users, mbind, M_bind, bind, Client.requests_get,
      Client.requests_call. by rewrite dispatch_get_users.
  - unfold Client.show_products, mbind, M_bind, bind, Client.requests_get,
      Client.requests_call. by rewrite dispatch_get_products.
Qed.

Lemma delete_route_refused (i : Z) :
  0 <= i ->
  Api.route DELETE ["users"; Client.py_str i] = MethodNotAllowed /\
  Api.route DELETE ["products"; Client.py_str i] = MethodNotAllowed.
Proof.
  intros Hi.
  pose proof (ConverterProofs.int_converter_py_str i Hi) as Hc.
  generalize dependent (Client.py_str i). intros seg Hc.
  split; cbn; by rewrite Hc.
Qed.

(** X10: deleting through the client deletes nothing.  For an id
    that is not negative, [delete_user] forwards [DELETE /users/{id}],
    which matches a rule of the API Service registered for GET only and
    is refused with 405; the client redirects to the listing all the
    same, the store is unchanged and fetching the id answers as before.
    Likewise for [delete_product]. *)
Theorem delete_forward_is_refused (i : Z) (w : world) :
  0 <= i ->
  Api.route DELETE ["users"; Client.py_str i] = MethodNotAllowed /\
  Client.delete_user i w =
    (inr (Client.redirect "/users"),
     log_request (mkRequest DELETE ["users"; Client.py_str i] None) w) /\
  fst (get_user i (snd (Client.delete_user i w))) = fst (get_user i w) /\
  Api.route DELETE ["products"; Client.py_str i] = MethodNotAllowed /\
  Client.delete_product i w =
    (inr (Client.redirect "/products"),
     log_request (mkRequest DELETE ["products"; Client.py_str i] None) w) /\
  fst (get_product i (snd (Client.delete_product i w))) = fst (get_product i w).
Proof.
  intros Hi. destruct (delete_route_refused i Hi) as [Hu Hp].
  assert (Hdu : Client.delete_user i w =
            (inr (Client.redirect "/users"),
             log_request (mkRequest DELETE ["users"; Client.py_str i] None) w)).
  { unfold Client.delete_user, mbind, M_bind, bind, Client.requests_delete,
      Client.requests_call, Api.dispatch.
    cbn [Api.req_method Api.req_path]. by rewrite Hu. }
  assert (Hdp : Client.delete_product i w =
            (inr (Client.redirect "/products"),
             log_request (mkRequest DELETE ["products"; Client.py_str i] None) w)).
  { unfold Client.delete_product, mbind, M_bind, bind, Client.requests_delete,
      Client.requests_call, Api.dispatch.
    cbn [Api.req_method Api.req_path]. by rewrite Hp. }
  split; [done|]. split; [done|]. split.
  { rewrite Hdu. cbn [snd]. rewrite !ApiProofs.get_user_run. by destruct (int64 i). }
  split; [done|]. split; [done|].
  rewrite Hdp. cbn [snd]. rewrite !ApiProofs.get_product_run. by destruct (int64 i).
Qed.

Lemma delete_forward_is_refused_witness :
  Client.delete_user 2 sample_world =
    (inr (Client.redirect "/users"),
     log_request (mkRequest DELETE ["users"; "2"] None) sample_world) /\
  fst (get_user 2 (snd (Client.delete_user 2 sample_world)))
    = fst (get_user 2 sample_world).
Proof.
  assert (Hi : 0 <= 2) by lia.
  destruct (delete_forward_is_refused 2 sample_world Hi) as (_ & Hd & Hg & _).
  exact (conj Hd Hg).
Defined.

Section AnyFloat.
Variable py_float : string -> option float.
Variable debug : bool.

(** X11: [add_product] reads name and price from the form and
    converts the price before it forwards anything.  When the price
    text is not a number the handler raises [ValueError]; when it
    converts to a number that is not finite (an infinity or a NaN) the
    forwarding call raises while serialising its JSON body; in both
    cases the client answers 500 and nothing is sent to the API
    Service.  When the price converts to a finite number, one POST to
    [/products] carrying the name and the converted price is forwarded,
    the store stays as it was (the API Service has no rule for that
    POST) and the client redirects to the product listing. *)
Theorem add_product_converts_price_first
    (form : list (string * string)) (name price : string) (w : world) :
  assoc "name" form = Some name ->
  assoc "price" form = Some price ->
  match py_float price with
  | None =>
      Client.add_product py_float form w
        = (inl (ValueError "could not convert string to float"), w) /\
      Client.dispatch py_float debug (Client.mkRequest POST ["products"; "add"] form) w
        = (mkResponse 500 BErrorPage, w)
  | Some f =>
      if PrimFloat.is_finite f then
        Client.add_product py_float form w
          = (inr (Client.redirect "/products"),
             log_request
               (mkRequest POST ["products"]
                  (Some (JObj [("name", JStr name); ("price", JReal f)]))) w) /\
        store (snd (Client.add_product py_float form w)) = store w
      else
        Client.add_product py_float form w = (inl InvalidJSONError, w) /\
        Client.dispatch py_float debug (Client.mkRequest POST ["products"; "add"] form) w
          = (mkResponse 500 BErrorPage, w)
  end.
Proof.
  intros Hn Hp.
  assert (Hrun : Client.add_product py_float form w =
            match py_float price with
            | Some f =>
                if PrimFloat.is_finite f then
                  (inr (Client.redirect "/products"),
                   log_request
                     (mkRequest POST ["products"]
                        (Some (JObj [("name", JStr name); ("price", JReal f)]))) w)
                else (inl InvalidJSONError, w)
            | None => (inl (ValueError "could not convert string to float"), w)
            end).
  { unfold Client.add_product, mbind, M_bind, bind, Client.form_get.
    rewrite Hn, Hp. cbn [ret]. destruct (py_float price) as [f|]; [|done].
    unfold Client.requests_post, Client.requests_call.
    cbn [json_finite forallb snd]. rewrite !andb_true_r.
    by destruct (PrimFloat.is_finite f). }
  destruct (py_float price) as [f|] eqn:Hf.
  - destruct (PrimFloat.is_finite f) eqn:Hfin.
    + rewrite Hrun. by split.
    + split; [done|]. unfold Client.dispatch. cbn. by rewrite Hrun.
  - split; [done|]. unfold Client.dispatch. cbn. by rewrite Hrun.
Qed.

Lemma keeps_store_requests_call (m : http_method) (path : list string)
    (js : option json) :
  keeps_store (Client.requests_call m path js).
Proof.
  intros w. unfold Client.requests_call.
  pose proof (ApiProofs.dispatch_store (mkRequest m path js) w) as Hd.
  destruct js as [j|]; [destruct (json_finite j); [|done]|];
    by destruct (Api.dispatch (mkRequest m path _) w).
Qed.

Lemma keeps_store_response_json (r : response) : keeps_store (Client.response_json r).
Proof. intros w. unfold Client.response_json. by destruct (payload r). Qed.

Lemma keeps_store_form_get (form : list (string * string)) (key : string) :
  keeps_store (Client.form_get form key).
Proof. intros w. unfold Client.form_get. by destruct (assoc key form). Qed.

Lemma keeps_store_client_view (e : Client.endpoint) (form : list (string * string)) :
  keeps_store (Client.view py_float e form).
Proof.
  destruct e; cbn [Client.view];
    unfold Client.home, Client.show_users, Client.add_user, Client.delete_user,
      Client.show_products, Client.add_product, Client.delete_product,
      Client.requests_get, Client.requests_post, Client.requests_delete;
    repeat first
      [ apply ApiProofs.keeps_store_ret
      | apply ApiProofs.keeps_store_raise
      | apply keeps_store_requests_call
      | apply keeps_store_response_json
      | apply keeps_store_form_get
      | apply ApiProofs.keeps_store_bind; [|intros ?]
      | match goal with |- keeps_store (match ?x with _ => _ end) => destruct x end ].
Qed.

(** X12: no page of the Client Service changes the data.  Whatever
    the method, path and form of a request to the client, the store
    behind the API Service is afterwards what it was before. *)
Theorem client_never_changes_store (r : Client.request) (w : world) :
  store (snd (Client.dispatch py_float debug r w)) = store w.
Proof.
  unfold Client.dispatch.
  destruct (Client.route (Client.req_method r) (Client.req_path r)) as [e| |];
    [|done..].
  pose proof (keeps_store_client_view e (Client.req_form r) w) as Hk.
  by destruct (Client.view py_float e (Client.req_form r) w) as [[ex|resp] w'].
Qed.

Lemma dispatch_logs_once (r : request) (w : world) :
  access_log (snd (Api.dispatch r w)) = access_log w ++ [r].
Proof.
  pose proof (ServiceProofs.dispatch_outcome r w) as Hd.
  destruct (overflows r); [by rewrite Hd|].
  by destruct Hd as [_ [-> | ->]].
Qed.

Lemma forwards_ret {A : Type} (a : A) : forwards_at_most 0 (ret a).
Proof. intros w. exists []. by rewrite app_nil_r. Qed.

Lemma forwards_raise {A : Type} (e : exn) : forwards_at_most 0 (raise (A:=A) e).
Proof. intros w. exists []. by rewrite app_nil_r. Qed.

Lemma forwards_form_get (form : list (string * string)) (key : string) :
  forwards_at_most 0 (Client.form_get form key).
Proof.
  unfold Client.form_get. destruct (assoc key form); [apply forwards_ret|apply forwards_raise].
Qed.

Lemma forwards_response_json (r : response) :
  forwards_at_most 0 (Client.response_json r).
Proof.
  unfold Client.response_json. destruct (payload r);
    (apply forwards_ret || apply forwards_raise).
Qed.

Lemma forwards_requests_call (m : http_method) (path : list string) (js : option json) :
  forwards_at_most 1 (Client.requests_call m path js).
Proof.
  intros w. unfold Client.requests_call.
  pose proof (dispatch_logs_once (mkRequest m path js) w) as Hd.
  assert (Hnone : exists l,
            access_log w = access_log w ++ l /\ (length l <= 1)%nat).
  { exists []. rewrite app_nil_r. split; [done|cbn; lia]. }
  destruct js as [j|].
  - destruct (json_finite j); [|exact Hnone].
    exists [mkRequest m path (Some j)].
    destruct (Api.dispatch (mkRequest m path (Some j)) w). by split.
  - exists [mkRequest m path None].
    destruct (Api.dispatch (mkRequest m path None) w). by split.
Qed.

Lemma forwards_bind {A B : Type} (a b : nat) (m : M A) (k : A -> M B) :
  forwards_at_most a m -> (forall x, forwards_at_most b (k x)) ->
  forwards_at_most (a + b) (m ≫= k).
Proof.
  intros Hm Hk w. unfold mbind, M_bind, bind.
  destruct (Hm w) as (l1 & Hl1 & Hn1).
  destruct (m w) as [[e|x] w1]; cbn [snd] in *.
  - exists l1. split; [done|lia].
  - destruct (Hk x w1) as (l2 & Hl2 & Hn2). exists (l1 ++ l2).
    rewrite Hl2, Hl1, app_assoc, length_app. split; [done|lia].
Qed.

Lemma forwards_client_view (e : Client.endpoint) (form : list (string * string)) :
  forwards_at_most 1 (Client.view py_float e form).
Proof.
  destruct e; cbn [Client.view].
  - intros w. exists []. rewrite app_nil_r. split; [done|cbn; lia].
  - apply (forwards_bind 1 0); [apply forwards_requests_call|intros r].
    apply (forwards_bind 0 0); [apply forwards_response_json|intros j; apply forwards_ret].
  - apply (forwards_bind 0 1); [apply forwards_form_get|intros name].
    apply (forwards_bind 0 1); [apply forwards_form_get|intros email].
    apply (forwards_bind 1 0); [apply forwards_requests_call|intros _; apply forwards_ret].
  - apply (forwards_bind 1 0); [apply forwards_requests_call|intros _; apply forwards_ret].
  - apply (forwards_bind 1 0); [apply forwards_requests_call|intros r].
    apply (forwards_bind 0 0); [apply forwards_response_json|intros j; apply forwards_ret].
  - apply (forwards_bind 0 1); [apply forwards_form_get|intros name].
    apply (forwards_bind 0 1); [apply forwards_form_get|intros price].
    destruct (py_float price); [|intros w; exists []; rewrite app_nil_r; split; [done|cbn; lia]].
    apply (forwards_bind 1 0); [apply forwards_requests_call|intros _; apply forwards_ret].
  - apply (forwards_bind 1 0); [apply forwards_requests_call|intros _; apply forwards_ret].
Qed.

(** X13: a request to the Client Service makes at most one call to
    the API Service: the access log of the API Service grows by at
    most one entry, and by none when the request matches no rule of
    the client or uses a method its rule does not allow. *)
Theorem client_forwards_at_most_once (r : Client.request) (w : world) :
  (exists l,
      access_log (snd (Client.dispatch py_float debug r w)) = access_log w ++ l /\
      (length l <= 1)%nat) /\
  ((forall e, Client.route (Client.req_method r) (Client.req_path r) <> Matched e) ->
   snd (Client.dispatch py_float debug r w) = w).
Proof.
  unfold Client.dispatch.
  destruct (Client.route (Client.req_method r) (Client.req_path r)) as [e| |].
  - split; [|intros Hno; by destruct (Hno e)].
    destruct (forwards_client_view e (Client.req_form r) w) as (l & Hl & Hn).
    exists l. by destruct (Client.view py_float e (Client.req_form r) w) as [[ex|resp] w'].
  - split; [|done]. exists []. rewrite app_nil_r. split; [done|cbn; lia].
  - split; [|done]. exists []. rewrite app_nil_r. split; [done|cbn; lia].
Qed.

End AnyFloat.

Lemma add_product_converts_price_first_witness :
  Client.add_product sample_float [("name", "pen"); ("price", "abc")] sample_world
    = (inl (ValueError "could not convert string to float"), sample_world) /\
  Client.add_product sample_float [("name", "pen"); ("price", "inf")] sample_world
    = (inl InvalidJSONError, sample_world) /\
  store (snd (Client.add_product sample_float [("name", "pen"); ("price", "1.5")]
                sample_world)) = store sample_world.
Proof.
  destruct (add_product_converts_price_first sample_float true
              [("name", "pen"); ("price", "abc")] "pen" "abc" sample_world
              eq_refl eq_refl) as [Hbad _].
  destruct (add_product_converts_price_first sample_float true
              [("name", "pen"); ("price", "inf")] "pen" "inf" sample_world
              eq_refl eq_refl) as [Hinf _].
  destruct (add_product_converts_price_first sample_float true
              [("name", "pen"); ("price", "1.5")] "pen" "1.5" sample_world
              eq_refl eq_refl) as [_ Hgood].
  exact (conj Hbad (conj Hinf Hgood)).
Defined.

End PageProofs.

Module DemoExtraProofs.
Import Demo.

Lemma dispatch_answer_ignores_items (r : request) (st1 st2 : items_state) :
  fst (dispatch r st1) = fst (dispatch r st2).
Proof.
  unfold dispatch.
  destruct (route (req_method r) (req_path r)) as [[]| |]; try done.
  by destruct (req_item r).
Qed.

(** X14: the Demo Service never shows its list.  The answer to a
    request, and the answers to a whole sequence of requests, are the
    same whatever the items list holds when they arrive. *)
Theorem demo_answers_ignore_items (rs : list request) (st1 st2 : items_state) :
  fst (serve rs st1) = fst (serve rs st2) /\
  (forall r, fst (dispatch r st1) = fst (dispatch r st2)).
Proof.
  split; [|intros r; apply dispatch_answer_ignores_items].
  revert st1 st2. induction rs as [|r rs IH]; intros st1 st2; [done|].
  cbn [serve]. pose proof (dispatch_answer_ignores_items r st1 st2) as Hd.
  destruct (dispatch r st1) as [resp1 st1'], (dispatch r st2) as [resp2 st2'].
  specialize (IH st1' st2').
  destruct (serve rs st1') as [resps1 st1''], (serve rs st2') as [resps2 st2''].
  cbn in *. congruence.
Qed.

End DemoExtraProofs.

